(** * StorageObject: a dictionary behind a re-entrant lock

    Shallow embedding of [storageObject/storageobject.py].  The class keeps
    one Python [dict] in [self._data] and runs every method body inside
    [with self._lock].  The methods are modelled as computations over the
    object's state that either return a value or raise a Python exception;
    the state survives a raised exception, as it does in Python. *)

From Stdlib Require Import ZArith List String Ascii Bool Lia.
Import ListNotations.
Local Open Scope bool_scope.
Local Open Scope string_scope.

(** ** The fragment of Python the class runs on *)

Module Py.

(** Python objects that can travel through the class as keys, values,
    defaults or as the [keys] argument: [None], integers, strings, lists
    and tuples.  Lists are the unhashable objects of the fragment. *)
#[local] Unset Elimination Schemes.
Inductive value : Type :=
  | VNone
  | VInt (z : Z)
  | VStr (s : string)
  | VList (xs : list value)
  | VTuple (xs : list value).
#[local] Set Elimination Schemes.

(** The exceptions a method of the class can raise. *)
Inductive exn : Type :=
  | TypeError.

Inductive result (A : Type) : Type :=
  | Ok (a : A)
  | Raise (e : exn).
Arguments Ok {A} a.
Arguments Raise {A} e.

(** [hash(v)] succeeds: a list has no hash, a tuple hashes its items. *)
Fixpoint hashable (v : value) : bool :=
  match v with
  | VNone | VInt _ | VStr _ => true
  | VList _ => false
  | VTuple xs => forallb hashable xs
  end.

Section ListEqb.
Context {A : Type} (f : A -> A -> bool).

Fixpoint list_eqb (xs ys : list A) : bool :=
  match xs, ys with
  | [], [] => true
  | x :: xs', y :: ys' => f x y && list_eqb xs' ys'
  | _, _ => false
  end.
End ListEqb.

(** Python's [==] on the fragment. *)
Fixpoint eqb (a b : value) : bool :=
  match a, b with
  | VNone, VNone => true
  | VInt x, VInt y => Z.eqb x y
  | VStr s, VStr t => String.eqb s t
  | VList xs, VList ys => list_eqb eqb xs ys
  | VTuple xs, VTuple ys => list_eqb eqb xs ys
  | _, _ => false
  end.

(** A [string] holds the UTF-8 bytes of a Python [str].  A byte of the
    form [10xxxxxx] continues the character that the bytes before it
    started. *)
Definition continuation (c : ascii) : bool :=
  match c with
  | Ascii _ _ _ _ _ _ b6 b7 => b7 && negb b6
  end.

(** The characters of the bytes [s], with the continuation bytes found
    before the first character. *)
Fixpoint chars_from (s : string) : string * list string :=
  match s with
  | EmptyString => (EmptyString, [])
  | String c rest =>
      let (pending, cs) := chars_from rest in
      if continuation c then (String c pending, cs)
      else (EmptyString, String c pending :: cs)
  end.

(** The characters (code points) of a [str], each as a string. *)
Definition characters (s : string) : list string :=
  let (pending, cs) := chars_from s in
  match pending with
  | EmptyString => cs
  | String _ _ => pending :: cs
  end.

(** [iter(v)]: lists and tuples yield their items, a string its
    one-character strings; [None] and integers are not iterable. *)
Definition iter (v : value) : result (list value) :=
  match v with
  | VList xs | VTuple xs => Ok xs
  | VStr s => Ok (map VStr (characters s))
  | VNone | VInt _ => Raise TypeError
  end.

(** *** Dictionaries

    A [dict] keeps its items in insertion order; assigning to a key that is
    already there keeps the key's position. *)
Definition dict : Type := list (value * value).

Fixpoint lookup (d : dict) (k : value) : option value :=
  match d with
  | [] => None
  | (k', v) :: d' => if eqb k' k then Some v else lookup d' k
  end.

Fixpoint upsert (d : dict) (k v : value) : dict :=
  match d with
  | [] => [(k, v)]
  | (k', v') :: d' =>
      if eqb k' k then (k', v) :: d' else (k', v') :: upsert d' k v
  end.

Fixpoint delete (d : dict) (k : value) : dict :=
  match d with
  | [] => []
  | (k', v') :: d' => if eqb k' k then d' else (k', v') :: delete d' k
  end.

Definition is_some {A : Type} (o : option A) : bool :=
  match o with Some _ => true | None => false end.

(** Every key of a dictionary is hashable and occurs once. *)
Fixpoint wf (d : dict) : bool :=
  match d with
  | [] => true
  | (k, _) :: d' => hashable k && negb (is_some (lookup d' k)) && wf d'
  end.

(** [k in d] *)
Definition contains (d : dict) (k : value) : result bool :=
  if hashable k then Ok (is_some (lookup d k)) else Raise TypeError.

(** [d.get(k, default)] *)
Definition get (d : dict) (k default : value) : result value :=
  if hashable k then
    Ok (match lookup d k with Some v => v | None => default end)
  else Raise TypeError.

(** [d[k] = v] *)
Definition setitem (d : dict) (k v : value) : result dict :=
  if hashable k then Ok (upsert d k v) else Raise TypeError.

(** [d.pop(k, default)]: the popped value and the dictionary left.  On
    an empty dictionary the default is returned before the key is hashed,
    so that no key raises there. *)
Definition pop (d : dict) (k default : value) : result (value * dict) :=
  match d with
  | [] => Ok (default, d)
  | _ :: _ =>
      if hashable k then
        Ok (match lookup d k with Some v => v | None => default end,
            delete d k)
      else Raise TypeError
  end.

(** [d.pop(k, default)] returns: [d] is empty or [k] can be hashed. *)
Definition pop_returns (d : dict) (k : value) : bool :=
  match d with
  | [] => true
  | _ :: _ => hashable k
  end.

(** [list(d.items())] and [list(d.values())] *)
Definition items (d : dict) : list (value * value) := d.
Definition values (d : dict) : list value := map snd d.

End Py.

Import Py.

(** ** The object and its methods *)

(** [self._data] and [self._lock].  The lock is an [RLock]; the model keeps
    the number of times the calling thread holds it. *)
Record StorageObject : Type := mkStorageObject {
  _data : dict;
  _lock : nat
}.

(** A method body: it runs on the object's state, returns or raises, and
    leaves a state behind in both cases. *)
Definition M (A : Type) : Type := StorageObject -> result A * StorageObject.

Definition ret {A : Type} (a : A) : M A := fun s => (Ok a, s).

Definition bind {A B : Type} (m : M A) (f : A -> M B) : M B :=
  fun s =>
    match m s with
    | (Ok a, s') => f a s'
    | (Raise e, s') => (Raise e, s')
    end.

Notation "x <- m ;; k" := (bind m (fun x => k))
  (at level 61, m at next level, right associativity).
Notation "m ;;; k" := (bind m (fun _ => k))
  (at level 61, right associativity).

(** Lift a dictionary primitive that may raise. *)
Definition lift {A : Type} (r : result A) : M A := fun s => (r, s).

Definition read_data : M dict := fun s => (Ok (_data s), s).

Definition write_data (d : dict) : M unit :=
  fun s => (Ok tt, {| _data := d; _lock := _lock s |}).

Definition acquire (s : StorageObject) : StorageObject :=
  {| _data := _data s; _lock := S (_lock s) |}.

Definition release (s : StorageObject) : StorageObject :=
  {| _data := _data s; _lock := Nat.pred (_lock s) |}.

(** [with self._lock: body]: the lock is released on return and on raise. *)
Definition with_lock {A : Type} (body : M A) : M A :=
  fun s => let (r, s') := body (acquire s) in (r, release s').

(** An optional argument: [None] when the caller leaves it out. *)
Definition arg_or (supplied : option value) (dflt : value) : value :=
  match supplied with Some v => v | None => dflt end.

(** [for x in xs: body x] *)
Fixpoint for_each {A : Type} (xs : list A) (body : A -> M unit) : M unit :=
  match xs with
  | [] => ret tt
  | x :: xs' => body x ;;; for_each xs' body
  end.

(** [StorageObject()] *)
Definition __init__ : StorageObject := {| _data := []; _lock := 0 |}.

(** [self._data[key] = value] *)
Definition assign (key value : value) : M unit :=
  d <- read_data ;;
  d' <- lift (setitem d key value) ;;
  write_data d'.

Definition set (key value : value) : M unit :=
  with_lock (assign key value).

Definition set_many (data : dict) : M unit :=
  with_lock (for_each (items data) (fun kv => assign (fst kv) (snd kv))).

Definition has (key : value) : M bool :=
  with_lock (d <- read_data ;; lift (contains d key)).

Definition get (key : value) (default : option value) : M value :=
  with_lock (d <- read_data ;; lift (Py.get d key (arg_or default VNone))).

(** [{key: self._data.get(key, default) for key in keys}], item by item. *)
Fixpoint comprehension (data : dict) (default : value) (keys : list value)
    (acc : dict) : result dict :=
  match keys with
  | [] => Ok acc
  | key :: keys' =>
      match Py.get data key default with
      | Ok v =>
          match setitem acc key v with
          | Ok acc' => comprehension data default keys' acc'
          | Raise e => Raise e
          end
      | Raise e => Raise e
      end
  end.

Definition get_many (keys : value) (default : option value) : M dict :=
  with_lock (
    d <- read_data ;;
    ks <- lift (iter keys) ;;
    lift (comprehension d (arg_or default VNone) ks [])).

Definition remove (key : value) : M unit :=
  with_lock (
    d <- read_data ;;
    r <- lift (pop d key VNone) ;;
    write_data (snd r)).

(** The batch write as the specification words it: [set] called once for
    every pair of the mapping, in the mapping's iteration order. *)
Definition set_each (data : dict) : M unit :=
  for_each (items data) (fun kv => set (fst kv) (snd kv)).

(** One public call on the object. *)
Inductive call : Type :=
  | CallSet (key value : value)
  | CallSetMany (data : dict)
  | CallHas (key : value)
  | CallGet (key : value) (default : option value)
  | CallGetMany (keys : value) (default : option value)
  | CallRemove (key : value).

(** The state a call leaves, whether it returns or raises. *)
Definition after (c : call) (s : StorageObject) : StorageObject :=
  match c with
  | CallSet k v => snd (set k v s)
  | CallSetMany d => snd (set_many d s)
  | CallHas k => snd (has k s)
  | CallGet k d => snd (get k d s)
  | CallGetMany ks d => snd (get_many ks d s)
  | CallRemove k => snd (remove k s)
  end.

(** A client's calls, one after the other; a call that raises is caught
    and the next one is made. *)
Definition run (cs : list call) (s : StorageObject) : StorageObject :=
  fold_left (fun s' c => after c s') cs s.

(** The call writes the key [k] when it returns: [set] on [k], or
    [set_many] on a mapping that holds [k]. *)
Definition sets (k : value) (c : call) : bool :=
  match c with
  | CallSet k' _ => eqb k' k
  | CallSetMany data => is_some (lookup data k)
  | _ => false
  end.

(** No call of the history writes [k]. *)
Definition never_set (k : value) (cs : list call) : bool :=
  forallb (fun c => negb (sets k c)) cs.

(** What a lookup of [k] with a default gives on [data]. *)
Definition stored_or (data : dict) (default k : value) : value :=
  match lookup data k with Some v => v | None => default end.

(** The store of the batch example: [{'a': 1, 'b': 2}]. *)
Definition store_ab : StorageObject :=
  snd (set_many [(VStr "a", VInt 1); (VStr "b", VInt 2)] __init__).

(** [k] is one of [ks], by Python's [==]. *)
Definition mem (k : value) (ks : list value) : bool := existsb (eqb k) ks.

(** No key occurs twice. *)
Fixpoint distinct (ks : list value) : bool :=
  match ks with
  | [] => true
  | k :: ks' => negb (mem k ks') && distinct ks'
  end.

(** The keys at their first occurrence: later repetitions are dropped. *)
Fixpoint first_occurrences (ks : list value) : list value :=
  match ks with
  | [] => []
  | k :: ks' => k :: filter (fun x => negb (eqb x k)) (first_occurrences ks')
  end.

(** [list(d.keys())] *)
Definition keys (d : dict) : list value := map fst d.

(** The item [get_many] stores for the key [k]. *)
Definition fetched (data : dict) (default k : value) : value * value :=
  (k, stored_or data default k).

(** The computation ended in an exception. *)
Definition raised {A : Type} (r : result A * StorageObject) : bool :=
  match fst r with Raise _ => true | Ok _ => false end.

(** The call raises on the state [s]. *)
Definition raises (c : call) (s : StorageObject) : bool :=
  match c with
  | CallSet k v => raised (set k v s)
  | CallSetMany d => raised (set_many d s)
  | CallHas k => raised (has k s)
  | CallGet k d => raised (get k d s)
  | CallGetMany ks d => raised (get_many ks d s)
  | CallRemove k => raised (remove k s)
  end.

(** The mapping handed to [set_many] is a dictionary. *)
Definition dict_args (c : call) : bool :=
  match c with
  | CallSetMany d => wf d
  | _ => true
  end.

(** ** Equality of Python objects *)

Section ValueInd.
Variable P : value -> Prop.
Hypothesis HNone : P VNone.
Hypothesis HInt : forall z, P (VInt z).
Hypothesis HStr : forall s, P (VStr s).
Hypothesis HList : forall xs, Forall P xs -> P (VList xs).
Hypothesis HTuple : forall xs, Forall P xs -> P (VTuple xs).

Fixpoint value_ind (v : value) : P v :=
  let fix all (xs : list value) : Forall P xs :=
    match xs with
    | [] => Forall_nil P
    | x :: xs' => Forall_cons x (value_ind x) (all xs')
    end in
  match v with
  | VNone => HNone
  | VInt z => HInt z
  | VStr s => HStr s
  | VList xs => HList xs (all xs)
  | VTuple xs => HTuple xs (all xs)
  end.
End ValueInd.

Lemma list_eqb_eq (xs : list value) :
  Forall (fun a => forall b, eqb a b = true <-> a = b) xs ->
  forall ys, list_eqb eqb xs ys = true <-> xs = ys.
Proof.
  induction 1 as [|x xs Hx _ IH]; intros [|y ys]; simpl;
    try (split; [discriminate | discriminate]); try tauto.
  rewrite andb_true_iff, Hx, IH. split.
  - intros [-> ->]. reflexivity.
  - intros E. injection E as -> ->. split; reflexivity.
Qed.

Lemma eqb_eq (a b : value) : eqb a b = true <-> a = b.
Proof.
  revert b. induction a as [|z|s|xs IH|xs IH] using value_ind;
    intros [|z'|s'|ys|ys]; simpl;
    try (split; [discriminate | discriminate]); try tauto.
  - rewrite Z.eqb_eq. split; [intros ->; reflexivity | intros E; injection E; auto].
  - rewrite String.eqb_eq. split; [intros ->; reflexivity | intros E; injection E; auto].
  - rewrite (list_eqb_eq xs IH). split; [intros ->; reflexivity | intros E; injection E; auto].
  - rewrite (list_eqb_eq xs IH). split; [intros ->; reflexivity | intros E; injection E; auto].
Qed.

Lemma eqb_refl (a : value) : eqb a a = true.
Proof. apply eqb_eq. reflexivity. Qed.

Lemma eqb_neq (a b : value) : a <> b -> eqb a b = false.
Proof.
  intros N. destruct (eqb a b) eqn:E; [|reflexivity].
  apply eqb_eq in E. contradiction.
Qed.


(** ** Dictionaries: lookup after assignment and removal *)

Lemma lookup_upsert_eq (d : dict) (k v : value) :
  lookup (upsert d k v) k = Some v.
Proof.
  induction d as [|[k' v'] d IH]; simpl.
  - rewrite eqb_refl. reflexivity.
  - destruct (eqb k' k) eqn:E; simpl; rewrite E; auto.
Qed.

Lemma lookup_upsert_ne (d : dict) (k k' v : value) :
  k <> k' -> lookup (upsert d k v) k' = lookup d k'.
Proof.
  intros N. induction d as [|[k0 v0] d IH]; simpl.
  - rewrite (eqb_neq _ _ N). reflexivity.
  - destruct (eqb k0 k) eqn:E; simpl.
    + apply eqb_eq in E. subst k0. rewrite (eqb_neq _ _ N). reflexivity.
    + rewrite IH. reflexivity.
Qed.

Lemma lookup_delete_ne (d : dict) (k k' : value) :
  k <> k' -> lookup (delete d k) k' = lookup d k'.
Proof.
  intros N. induction d as [|[k0 v0] d IH]; simpl; [reflexivity|].
  destruct (eqb k0 k) eqn:E; simpl.
  - apply eqb_eq in E. subst k0. rewrite (eqb_neq _ _ N). reflexivity.
  - rewrite IH. reflexivity.
Qed.

Lemma delete_absent (d : dict) (k : value) :
  lookup d k = None -> delete d k = d.
Proof.
  induction d as [|[k0 v0] d IH]; simpl; [reflexivity|].
  destruct (eqb k0 k); [discriminate|].
  intros H. rewrite (IH H). reflexivity.
Qed.

Lemma lookup_delete_eq (d : dict) (k : value) :
  wf d = true -> lookup (delete d k) k = None.
Proof.
  induction d as [|[k0 v0] d IH]; simpl; [reflexivity|].
  intros W. apply andb_true_iff in W as [W Wd].
  apply andb_true_iff in W as [_ Wk].
  destruct (eqb k0 k) eqn:E; simpl.
  - apply eqb_eq in E. subst k0.
    destruct (lookup d k); [discriminate | reflexivity].
  - rewrite E. auto.
Qed.

Lemma wf_upsert (d : dict) (k v : value) :
  hashable k = true -> wf d = true -> wf (upsert d k v) = true.
Proof.
  intros Hk. induction d as [|[k0 v0] d IH]; simpl.
  - intros _. rewrite Hk. reflexivity.
  - intros W. apply andb_true_iff in W as [W Wd].
    apply andb_true_iff in W as [Hk0 Wk].
    destruct (eqb k0 k) eqn:E; simpl.
    + rewrite Hk0, Wk, Wd. reflexivity.
    + rewrite Hk0, (IH Wd), lookup_upsert_ne, Wk; [reflexivity|].
      intros ->. rewrite eqb_refl in E. discriminate.
Qed.

Lemma lookup_delete_absent (d : dict) (k k' : value) :
  lookup d k' = None -> lookup (delete d k) k' = None.
Proof.
  induction d as [|[k0 v0] d IH]; simpl; [reflexivity|].
  destruct (eqb k0 k') eqn:E'; [discriminate|]. intros H.
  destruct (eqb k0 k); simpl; [exact H|]. rewrite E'. auto.
Qed.

Lemma wf_delete (d : dict) (k : value) :
  wf d = true -> wf (delete d k) = true.
Proof.
  induction d as [|[k0 v0] d IH]; simpl; [reflexivity|].
  intros W. apply andb_true_iff in W as [W Wd].
  apply andb_true_iff in W as [Hk0 Wk].
  destruct (eqb k0 k); simpl; [exact Wd|].
  rewrite Hk0, (IH Wd). destruct (lookup d k0) eqn:L; [discriminate|].
  rewrite (lookup_delete_absent _ _ _ L). reflexivity.
Qed.

(** ** What each method computes *)

Lemma same_state (s : StorageObject) :
  {| _data := _data s; _lock := _lock s |} = s.
Proof. destruct s. reflexivity. Qed.

Lemma has_run (k : value) (s : StorageObject) :
  has k s = (contains (_data s) k, s).
Proof.
  unfold has, with_lock, bind, read_data, lift, release, acquire. simpl.
  rewrite same_state. reflexivity.
Qed.

Lemma get_run (k : value) (default : option value) (s : StorageObject) :
  get k default s = (Py.get (_data s) k (arg_or default VNone), s).
Proof.
  unfold get, with_lock, bind, read_data, lift, release, acquire. simpl.
  rewrite same_state. reflexivity.
Qed.

Lemma set_run (k v : value) (s : StorageObject) :
  set k v s =
  if hashable k
  then (Ok tt, {| _data := upsert (_data s) k v; _lock := _lock s |})
  else (Raise TypeError, s).
Proof.
  unfold set, assign, with_lock, bind, read_data, write_data, lift, setitem,
    release, acquire. simpl.
  destruct (hashable k); simpl; [reflexivity|].
  rewrite same_state. reflexivity.
Qed.

Lemma remove_run (k : value) (s : StorageObject) :
  remove k s =
  if pop_returns (_data s) k
  then (Ok tt, {| _data := delete (_data s) k; _lock := _lock s |})
  else (Raise TypeError, s).
Proof.
  unfold remove, with_lock, bind, read_data, write_data, lift, pop,
    pop_returns, release, acquire. simpl.
  destruct (_data s) as [|kv d] eqn:D; simpl.
  - reflexivity.
  - destruct (hashable k); simpl; [reflexivity|].
    rewrite <- D, same_state. reflexivity.
Qed.

Lemma pop_returns_hashable (d : dict) (k : value) :
  hashable k = true -> pop_returns d k = true.
Proof. intros Hk. destruct d; [reflexivity | exact Hk]. Qed.

(** The store [remove] leaves, whether it returns or raises. *)
Lemma remove_state (k : value) (s : StorageObject) :
  snd (remove k s) =
  if hashable k
  then {| _data := delete (_data s) k; _lock := _lock s |}
  else s.
Proof.
  rewrite remove_run. unfold pop_returns.
  destruct (_data s) as [|kv d] eqn:D; simpl.
  - destruct (hashable k); [reflexivity|].
    rewrite <- D. apply same_state.
  - destruct (hashable k); reflexivity.
Qed.

Lemma pop_refuses (d : dict) (k : value) :
  pop_returns d k = false -> hashable k = false /\ d <> [].
Proof.
  destruct d; simpl; [discriminate|]. intros Hk.
  split; [exact Hk | discriminate].
Qed.

Lemma get_many_run (keys : value) (default : option value)
    (s : StorageObject) :
  get_many keys default s =
  (match iter keys with
   | Ok ks => comprehension (_data s) (arg_or default VNone) ks []
   | Raise e => Raise e
   end, s).
Proof.
  unfold get_many, with_lock, bind, read_data, lift, release, acquire. simpl.
  destruct (iter keys); simpl; rewrite same_state; reflexivity.
Qed.

Lemma upsert_upsert (d : dict) (k v1 v2 : value) :
  upsert (upsert d k v1) k v2 = upsert d k v2.
Proof.
  induction d as [|[k0 v0] d IH]; simpl.
  - rewrite eqb_refl. reflexivity.
  - destruct (eqb k0 k) eqn:E; simpl; rewrite E; [reflexivity|].
    rewrite IH. reflexivity.
Qed.

(** The loop of [set_many] under one lock does what one locked assignment
    per pair does. *)
Lemma locked_loop (xs : list (value * value)) (s : StorageObject) :
  with_lock (for_each xs (fun kv => assign (fst kv) (snd kv))) s =
  for_each xs (fun kv => set (fst kv) (snd kv)) s.
Proof.
  revert s. induction xs as [|[k v] xs IH]; intros s.
  - unfold with_lock, ret, release, acquire. simpl.
    rewrite same_state. reflexivity.
  - simpl for_each. unfold bind at 2. simpl fst. simpl snd.
    rewrite set_run. destruct (hashable k) eqn:Hk.
    + rewrite <- IH. unfold with_lock, bind, assign, read_data, write_data,
        lift, setitem, acquire. simpl. rewrite Hk. reflexivity.
    + unfold with_lock, bind, assign, read_data, lift, setitem, acquire,
        release. simpl. rewrite Hk. simpl. rewrite same_state. reflexivity.
Qed.

(** ** Invariants of the object *)

Lemma set_wf (k v : value) (s : StorageObject) :
  wf (_data s) = true -> wf (_data (snd (set k v s))) = true.
Proof.
  intros W. rewrite set_run. destruct (hashable k) eqn:Hk; simpl; [|exact W].
  apply wf_upsert; assumption.
Qed.

Lemma set_lock (k v : value) (s : StorageObject) :
  _lock (snd (set k v s)) = _lock s.
Proof. rewrite set_run. destruct (hashable k); reflexivity. Qed.

Lemma set_each_inv (xs : list (value * value)) (s : StorageObject) :
  wf (_data s) = true ->
  wf (_data (snd (for_each xs (fun kv => set (fst kv) (snd kv)) s))) = true
  /\ _lock (snd (for_each xs (fun kv => set (fst kv) (snd kv)) s)) = _lock s.
Proof.
  revert s. induction xs as [|[k v] xs IH]; intros s W; simpl.
  - split; [exact W | reflexivity].
  - unfold bind. simpl fst. simpl snd.
    pose proof (set_wf k v s W) as W1. pose proof (set_lock k v s) as L1.
    destruct (set k v s) as [[[]|e] s1]; simpl in *.
    + destruct (IH s1 W1) as [W2 L2]. split; [exact W2 | congruence].
    + split; assumption.
Qed.

Lemma after_inv (c : call) (s : StorageObject) :
  wf (_data s) = true ->
  wf (_data (after c s)) = true /\ _lock (after c s) = _lock s.
Proof.
  intros W. destruct c as [k v|data|k|k d|ks d|k]; cbn [after].
  - split; [apply set_wf; exact W | apply set_lock].
  - unfold set_many. rewrite locked_loop. apply set_each_inv. exact W.
  - rewrite has_run. split; [exact W | reflexivity].
  - rewrite get_run. split; [exact W | reflexivity].
  - rewrite get_many_run. split; [exact W | reflexivity].
  - rewrite remove_run. destruct (pop_returns (_data s) k); simpl.
    + split; [apply wf_delete; exact W | reflexivity].
    + split; [exact W | reflexivity].
Qed.

(** In every state a client can bring a new object to, the dictionary is
    well formed and the lock is free. *)
Lemma run_inv (cs : list call) (s : StorageObject) :
  wf (_data s) = true ->
  wf (_data (run cs s)) = true /\ _lock (run cs s) = _lock s.
Proof.
  revert s. induction cs as [|c cs IH]; intros s W; simpl.
  - split; [exact W | reflexivity].
  - destruct (after_inv c s W) as [W' L'].
    destruct (IH _ W') as [W'' L'']. split; [exact W'' | congruence].
Qed.

(** X3: whatever calls a client makes on a new object, and whether they
    return or raise, the dictionary keeps hashable keys, each once, and the
    lock is free between calls. *)
Lemma reachable_inv (cs : list call) :
  wf (_data (run cs __init__)) = true /\ _lock (run cs __init__) = 0%nat.
Proof. apply (run_inv cs __init__). reflexivity. Qed.

(** ** The dictionary [get_many] builds *)

Lemma comprehension_wf (data : dict) (default : value) (ks : list value) :
  forall acc r,
    wf acc = true -> comprehension data default ks acc = Ok r -> wf r = true.
Proof.
  induction ks as [|k ks IH]; intros acc r W; simpl.
  - intros E. injection E as <-. exact W.
  - unfold Py.get, setitem. destruct (hashable k) eqn:Hk; [|discriminate].
    apply IH. apply wf_upsert; assumption.
Qed.

Lemma comprehension_hashable (data : dict) (default : value)
    (ks : list value) :
  forall acc r,
    comprehension data default ks acc = Ok r -> forallb hashable ks = true.
Proof.
  induction ks as [|k ks IH]; intros acc r; simpl; [reflexivity|].
  unfold Py.get, setitem. destruct (hashable k); [|discriminate].
  simpl. apply IH.
Qed.

Lemma comprehension_lookup (data : dict) (default : value)
    (ks : list value) :
  forall acc r k,
    comprehension data default ks acc = Ok r ->
    lookup r k =
      if existsb (eqb k) ks then Some (stored_or data default k)
      else lookup acc k.
Proof.
  induction ks as [|k0 ks IH]; intros acc r k; simpl.
  - intros E. injection E as <-. reflexivity.
  - unfold Py.get, setitem. destruct (hashable k0) eqn:Hk0; [|discriminate].
    intros E. rewrite (IH _ _ k E).
    destruct (existsb (eqb k) ks); [rewrite orb_true_r; reflexivity|].
    rewrite orb_false_r. destruct (eqb k k0) eqn:Ek.
    + apply eqb_eq in Ek. subst k0. rewrite lookup_upsert_eq. reflexivity.
    + apply lookup_upsert_ne. intros ->. rewrite eqb_refl in Ek. discriminate.
Qed.

(** The result of [get_many] holds each requested key once, with the
    stored value or the default: it is keyed by the keys, not by their
    positions. *)
Lemma get_many_result (keys : value) (default : option value)
    (s s' : StorageObject) (r : dict) :
  get_many keys default s = (Ok r, s') ->
  s' = s /\ wf r = true /\
  exists ks, iter keys = Ok ks /\ forall k,
    lookup r k =
      if existsb (eqb k) ks
      then Some (stored_or (_data s) (arg_or default VNone) k)
      else None.
Proof.
  rewrite get_many_run. intros E. injection E as E <-.
  split; [reflexivity|]. destruct (iter keys) as [ks|e]; [|discriminate].
  split; [apply (comprehension_wf _ _ _ [] r eq_refl E)|].
  exists ks. split; [reflexivity|]. intros k.
  rewrite (comprehension_lookup _ _ _ _ _ k E). reflexivity.
Qed.

(** ** Batch reads *)

(** C1, code at the failing input: on the store [{'a': 1, 'b': 2}],
    [get_many(['a', 'x', 'a'])] returns the dictionary
    [{'a': 1, 'x': None}].  It has two items where the claim asks for the
    three-entry sequence [[1, None, 1]]: the repeated key is collapsed. *)
Theorem get_many_collapses_duplicates :
  exists r : dict,
    get_many (VList [VStr "a"; VStr "x"; VStr "a"]) None store_ab
      = (Ok r, store_ab)
    /\ r = [(VStr "a", VInt 1); (VStr "x", VNone)]
    /\ values r <> [VInt 1; VNone; VInt 1]
    /\ List.length (values r) = 2%nat.
Proof.
  eexists. split; [reflexivity|].
  split; [reflexivity|]. split; [discriminate | reflexivity].
Qed.

(** C2, code at the failing input: [get_many(None)] raises [TypeError]
    in every state and for every default, where the claim asks for an empty
    sequence and no error; on an empty list of keys the code returns the
    empty dictionary. *)
Theorem get_many_none_raises (default : option value) (s : StorageObject) :
  get_many VNone default s = (Raise TypeError, s)
  /\ get_many (VList []) default s = (Ok [], s).
Proof. rewrite !get_many_run. split; reflexivity. Qed.

(** ** Key validation *)

(** C3, counterexample: it is not the case that [set] completes on every
    key that [has], [get] and [remove] reject.  On the store
    [{'a': 1, 'b': 2}] all four raise [TypeError] for the key [[]]. *)
Lemma set_unhashable_counterexample :
  fst (has (VList []) store_ab) = Raise TypeError
  /\ fst (get (VList []) None store_ab) = Raise TypeError
  /\ fst (remove (VList []) store_ab) = Raise TypeError
  /\ ~ (exists s', set (VList []) (VInt 1) store_ab = (Ok tt, s')).
Proof.
  repeat split; try reflexivity. intros [s' E]. discriminate E.
Qed.

(** C3, amended: a key that [has] rejects with [TypeError] is rejected by
    [set] with the same error, for every value, and the store is left as it
    was; [get] rejects it too, and so does [remove] on a store that holds
    something. *)
Theorem set_rejects_rejected_keys (s : StorageObject) (k v : value)
    (default : option value) :
  fst (has k s) = Raise TypeError ->
  set k v s = (Raise TypeError, s)
  /\ get k default s = (Raise TypeError, s)
  /\ (_data s <> [] -> remove k s = (Raise TypeError, s)).
Proof.
  rewrite has_run, set_run, get_run, remove_run. unfold contains, Py.get.
  simpl. destruct (hashable k) eqn:Hk; [discriminate|]. intros _.
  split; [reflexivity|]. split; [reflexivity|].
  intros N. destruct (_data s); [contradiction|]. simpl. rewrite Hk.
  reflexivity.
Qed.

(** The amended claim on the store [{'a': 1, 'b': 2}] and the unhashable
    tuple [(1, [])]. *)
Lemma set_rejects_rejected_keys_witness :
  fst (has (VTuple [VInt 1; VList []]) store_ab) = Raise TypeError
  /\ set (VTuple [VInt 1; VList []]) (VInt 5) store_ab
       = (Raise TypeError, store_ab)
  /\ remove (VTuple [VInt 1; VList []]) store_ab
       = (Raise TypeError, store_ab).
Proof.
  split; [reflexivity|].
  destruct (set_rejects_rejected_keys store_ab (VTuple [VInt 1; VList []])
              (VInt 5) None eq_refl) as [H1 [_ H3]].
  split; [exact H1|]. apply H3. discriminate.
Defined.

(** [set] raises on exactly the keys the lookups raise on. *)
Lemma set_accepts_accepted_keys (s : StorageObject) (k v : value) (b : bool) :
  fst (has k s) = Ok b ->
  set k v s = (Ok tt, {| _data := upsert (_data s) k v; _lock := _lock s |}).
Proof.
  rewrite has_run, set_run. unfold contains. simpl.
  destruct (hashable k); [reflexivity | discriminate].
Qed.

(** C4, code at the failing input: on a new object [remove([])] returns,
    where the claim asks for [TypeError] as [has([])] and [get([])] give
    it.  [dict.pop(key, None)] does not hash the key of an empty
    dictionary, so that on an empty store [remove] returns for every
    key. *)
Theorem remove_unhashable_on_empty_store :
  hashable (VList []) = false
  /\ has (VList []) __init__ = (Raise TypeError, __init__)
  /\ get (VList []) None __init__ = (Raise TypeError, __init__)
  /\ remove (VList []) __init__ = (Ok tt, __init__)
  /\ (forall (k : value) (held : nat),
        remove k {| _data := []; _lock := held |}
        = (Ok tt, {| _data := []; _lock := held |})).
Proof.
  repeat split; try reflexivity.
Qed.

(** Where keys are rejected and where they are not.  A key that cannot be
    hashed makes [has] and [get] raise [TypeError] on every store and
    [remove] on every store that holds something; a string key, and every
    key that can be hashed, never makes a single-key method raise, whether
    the key is missing or holds [None]; the empty batches return. *)
Lemma key_errors (s : StorageObject) (k v : value)
    (default : option value) :
  (hashable k = false ->
     has k s = (Raise TypeError, s)
     /\ get k default s = (Raise TypeError, s)
     /\ (_data s <> [] -> remove k s = (Raise TypeError, s))
     /\ (_data s = [] -> remove k s = (Ok tt, s)))
  /\ (forall str, k = VStr str ->
        (exists b, has k s = (Ok b, s))
        /\ (exists x, get k default s = (Ok x, s))
        /\ (exists s', remove k s = (Ok tt, s')))
  /\ (hashable k = true ->
        has k s = (Ok (is_some (lookup (_data s) k)), s)
        /\ get k default s
             = (Ok (stored_or (_data s) (arg_or default VNone) k), s)
        /\ (exists s', remove k s = (Ok tt, s'))
        /\ (exists s', set k v s = (Ok tt, s')))
  /\ get_many (VList []) default s = (Ok [], s)
  /\ set_many [] s = (Ok tt, s).
Proof.
  rewrite has_run, get_run, remove_run, set_run, get_many_run.
  unfold contains, Py.get, stored_or.
  split; [|split; [|split; [|split]]].
  - intros Hk. rewrite Hk. split; [reflexivity|]. split; [reflexivity|].
    split.
    + intros N. destruct (_data s); [contradiction|]. simpl. rewrite Hk.
      reflexivity.
    + intros E. rewrite E. simpl. rewrite <- E, same_state. reflexivity.
  - intros str ->. rewrite pop_returns_hashable by reflexivity. simpl.
    repeat split; eexists; reflexivity.
  - intros Hk. rewrite Hk, (pop_returns_hashable _ _ Hk).
    repeat split; try reflexivity; eexists; reflexivity.
  - reflexivity.
  - unfold set_many. rewrite locked_loop. reflexivity.
Qed.

(** A key of another type that can be hashed is looked up like a string. *)
Example has_integer_key : has (VInt 5) store_ab = (Ok false, store_ab).
Proof. reflexivity. Qed.

(** ** Single-key reads and writes *)

(** C5: after [set(k, None)], [has(k)] is true and [get(k, fallback)]
    returns [None], not the fallback. *)
Theorem stored_none_is_present (s : StorageObject) (k fallback : value) :
  hashable k = true ->
  exists s',
    set k VNone s = (Ok tt, s')
    /\ has k s' = (Ok true, s')
    /\ get k (Some fallback) s' = (Ok VNone, s').
Proof.
  intros Hk. rewrite set_run, Hk. eexists. split; [reflexivity|].
  rewrite has_run, get_run. unfold contains, Py.get. simpl.
  rewrite Hk, lookup_upsert_eq. split; reflexivity.
Qed.

(** The case of the test suite: ['none_key'] with fallback ['def']. *)
Lemma stored_none_is_present_witness :
  hashable (VStr "none_key") = true
  /\ exists s',
       set (VStr "none_key") VNone store_ab = (Ok tt, s')
       /\ has (VStr "none_key") s' = (Ok true, s')
       /\ get (VStr "none_key") (Some (VStr "def")) s' = (Ok VNone, s').
Proof.
  split; [reflexivity|].
  apply (stored_none_is_present store_ab (VStr "none_key") (VStr "def")).
  reflexivity.
Defined.

(** C6: after [set(k, v1)] and [set(k, v2)], [get(k)] returns [v2], with
    or without a default; nothing of [v1] is left, the store is the one
    [set(k, v2)] alone gives. *)
Theorem set_overwrites (s : StorageObject) (k v1 v2 : value)
    (default : option value) :
  hashable k = true ->
  exists s1 s2,
    set k v1 s = (Ok tt, s1)
    /\ set k v2 s1 = (Ok tt, s2)
    /\ get k default s2 = (Ok v2, s2)
    /\ set k v2 s = (Ok tt, s2).
Proof.
  intros Hk. rewrite !set_run, Hk. do 2 eexists.
  split; [reflexivity|]. rewrite set_run, Hk. simpl.
  split; [reflexivity|]. rewrite get_run. unfold Py.get. simpl.
  rewrite Hk, lookup_upsert_eq, upsert_upsert. split; reflexivity.
Qed.

(** The case of the test suite: ['foo'] set to 1, then to 2. *)
Lemma set_overwrites_witness :
  hashable (VStr "foo") = true
  /\ exists s1 s2,
       set (VStr "foo") (VInt 1) __init__ = (Ok tt, s1)
       /\ set (VStr "foo") (VInt 2) s1 = (Ok tt, s2)
       /\ get (VStr "foo") None s2 = (Ok (VInt 2), s2)
       /\ set (VStr "foo") (VInt 2) __init__ = (Ok tt, s2).
Proof.
  split; [reflexivity|].
  apply (set_overwrites __init__ (VStr "foo") (VInt 1) (VInt 2) None).
  reflexivity.
Defined.

(** ** Removal *)

(** C7: a second [remove(k)] leaves the store as the first one left it and
    does not raise; [remove(k)] on a store without [k] changes nothing and
    does not raise. *)
Theorem remove_idempotent (s : StorageObject) (k : value) :
  wf (_data s) = true ->
  snd (remove k (snd (remove k s))) = snd (remove k s)
  /\ (hashable k = true ->
        fst (remove k s) = Ok tt
        /\ fst (remove k (snd (remove k s))) = Ok tt)
  /\ (has k s = (Ok false, s) -> remove k s = (Ok tt, s)).
Proof.
  intros W. rewrite has_run. unfold contains.
  rewrite (remove_run k s).
  destruct (pop_returns (_data s) k) eqn:P; simpl.
  - split; [|split].
    + rewrite remove_run. simpl.
      destruct (pop_returns (delete (_data s) k) k); simpl; [|reflexivity].
      rewrite (delete_absent _ _ (lookup_delete_eq _ k W)). reflexivity.
    + intros Hk. split; [reflexivity|].
      rewrite remove_run, (pop_returns_hashable _ _ Hk). reflexivity.
    + destruct (hashable k); [|discriminate]. intros E.
      destruct (lookup (_data s) k) eqn:Lk; [discriminate|].
      rewrite (delete_absent _ _ Lk), same_state. reflexivity.
  - rewrite remove_run, P. simpl. split; [reflexivity|].
    destruct (pop_refuses _ _ P) as [Hk _]. rewrite Hk.
    split; discriminate.
Qed.

(** On the store [{'a': 1, 'b': 2}]: removing ['a'] twice, and removing
    a key that is not there. *)
Lemma remove_idempotent_witness :
  wf (_data store_ab) = true
  /\ snd (remove (VStr "a") (snd (remove (VStr "a") store_ab)))
       = snd (remove (VStr "a") store_ab)
  /\ (hashable (VStr "a") = true
      /\ fst (remove (VStr "a") store_ab) = Ok tt)
  /\ (has (VStr "no_such_key") store_ab = (Ok false, store_ab)
      /\ remove (VStr "no_such_key") store_ab = (Ok tt, store_ab)).
Proof.
  split; [reflexivity|].
  destruct (remove_idempotent store_ab (VStr "a") eq_refl) as [H1 [H2 _]].
  destruct (remove_idempotent store_ab (VStr "no_such_key") eq_refl)
    as [_ [_ H3]].
  split; [exact H1|]. split.
  - split; [reflexivity|]. apply H2. reflexivity.
  - split; [reflexivity|]. apply H3. reflexivity.
Defined.

(** ** Batch writes *)

(** C8: [set_many(entries)] leaves the store that calling [set] on every
    pair of [entries], in iteration order, leaves, with the same outcome;
    on the empty mapping the store is unchanged. *)
Theorem set_many_is_set_each (data : dict) (s : StorageObject) :
  set_many data s = set_each data s
  /\ set_many [] s = (Ok tt, s).
Proof.
  unfold set_many, set_each. rewrite !locked_loop. split; reflexivity.
Qed.

(** ** Keys that were never written *)

Lemma set_each_untouched (xs : list (value * value)) (k : value) :
  lookup xs k = None ->
  forall s,
    lookup (_data (snd (for_each xs (fun kv => set (fst kv) (snd kv)) s))) k
    = lookup (_data s) k.
Proof.
  induction xs as [|[k0 v0] xs IH]; simpl; [reflexivity|].
  destruct (eqb k0 k) eqn:E; [discriminate|]. intros L s.
  unfold bind. simpl fst. simpl snd. rewrite set_run.
  destruct (hashable k0); [|reflexivity].
  rewrite (IH L). simpl. apply lookup_upsert_ne.
  intros ->. rewrite eqb_refl in E. discriminate.
Qed.

Lemma after_untouched (c : call) (k : value) (s : StorageObject) :
  sets k c = false ->
  lookup (_data s) k = None -> lookup (_data (after c s)) k = None.
Proof.
  destruct c as [k0 v|data|k0|k0 d|ks d|k0]; cbn [after sets]; intros N L.
  - rewrite set_run. destruct (hashable k0); [|exact L]. simpl.
    rewrite lookup_upsert_ne; [exact L|].
    intros ->. rewrite eqb_refl in N. discriminate.
  - unfold set_many. rewrite locked_loop, set_each_untouched; [exact L|].
    unfold items. destruct (lookup data k); [discriminate | reflexivity].
  - rewrite has_run. exact L.
  - rewrite get_run. exact L.
  - rewrite get_many_run. exact L.
  - rewrite remove_run. destruct (pop_returns (_data s) k0); [|exact L].
    simpl.
    apply lookup_delete_absent. exact L.
Qed.

Lemma run_untouched (cs : list call) (k : value) :
  never_set k cs = true ->
  forall s, lookup (_data s) k = None -> lookup (_data (run cs s)) k = None.
Proof.
  induction cs as [|c cs IH]; simpl; intros N s L; [exact L|].
  apply andb_true_iff in N as [Nc N]. apply negb_true_iff in Nc.
  apply (IH N). apply after_untouched; assumption.
Qed.

(** C9: on a new object, and after any calls none of which writes [k],
    [has(k)] is false and [get(k, default)] returns the default the caller
    gives, [None] when the caller gives none. *)
Theorem never_set_key_defaults (cs : list call) (k default : value) :
  hashable k = true ->
  never_set k cs = true ->
  has k (run cs __init__) = (Ok false, run cs __init__)
  /\ get k (Some default) (run cs __init__) = (Ok default, run cs __init__)
  /\ get k None (run cs __init__) = (Ok VNone, run cs __init__).
Proof.
  intros Hk N. rewrite has_run, !get_run. unfold contains, Py.get.
  rewrite Hk, (run_untouched cs k N __init__ eq_refl).
  repeat split; reflexivity.
Qed.

(** On a new object, and after a write to another key and a removal. *)
Lemma never_set_key_defaults_witness :
  (has (VStr "missing") __init__ = (Ok false, __init__)
   /\ get (VStr "missing") (Some (VStr "def")) __init__
        = (Ok (VStr "def"), __init__)
   /\ get (VStr "missing") None __init__ = (Ok VNone, __init__))
  /\ get (VStr "missing") None
       (run [CallSet (VStr "foo") (VInt 1); CallRemove (VStr "missing")]
            __init__)
     = (Ok VNone,
        run [CallSet (VStr "foo") (VInt 1); CallRemove (VStr "missing")]
            __init__).
Proof.
  split.
  - apply (never_set_key_defaults [] (VStr "missing") (VStr "def"));
      reflexivity.
  - apply (never_set_key_defaults
             [CallSet (VStr "foo") (VInt 1); CallRemove (VStr "missing")]
             (VStr "missing") VNone); reflexivity.
Defined.

(** ** Other keys *)

(** C10: [set(k, v)] and [remove(k)] leave every other key [k'] as it was:
    [has(k')] and [get(k', d)] give the same result before and after. *)
Theorem other_keys_unchanged (s : StorageObject) (k k' v : value)
    (default : option value) :
  k <> k' ->
  fst (has k' (snd (set k v s))) = fst (has k' s)
  /\ fst (get k' default (snd (set k v s))) = fst (get k' default s)
  /\ fst (has k' (snd (remove k s))) = fst (has k' s)
  /\ fst (get k' default (snd (remove k s))) = fst (get k' default s).
Proof.
  intros N. rewrite !has_run, !get_run, set_run, remove_run.
  unfold contains, Py.get.
  destruct (hashable k), (pop_returns (_data s) k); simpl;
    rewrite ?(lookup_upsert_ne _ _ _ _ N), ?(lookup_delete_ne _ _ _ N);
    repeat split; reflexivity.
Qed.

(** On the store [{'a': 1, 'b': 2}]: writing or removing ['a'] leaves
    ['b'] alone. *)
Lemma other_keys_unchanged_witness :
  VStr "a" <> VStr "b"
  /\ fst (has (VStr "b") (snd (set (VStr "a") (VInt 7) store_ab)))
       = fst (has (VStr "b") store_ab)
  /\ fst (get (VStr "b") None (snd (remove (VStr "a") store_ab)))
       = Ok (VInt 2).
Proof.
  assert (N : VStr "a" <> VStr "b") by discriminate.
  split; [exact N|].
  destruct (other_keys_unchanged store_ab (VStr "a") (VStr "b") (VInt 7)
              None N) as [H1 [_ [_ H4]]].
  split; [exact H1 | exact H4].
Defined.

(** ** Further properties of the methods *)

(** *** The lock *)

Lemma for_each_assign_lock (xs : list (value * value)) (s : StorageObject) :
  _lock (snd (for_each xs (fun kv => set (fst kv) (snd kv)) s)) = _lock s.
Proof.
  revert s. induction xs as [|[k v] xs IH]; intros s; simpl; [reflexivity|].
  unfold bind. simpl fst. simpl snd. pose proof (set_lock k v s) as L.
  destruct (set k v s) as [[[]|e] s1]; simpl in *; [|exact L].
  rewrite IH. exact L.
Qed.

(** X1: every method gives the lock back: whatever the store holds,
    however often the calling thread already holds the lock, and whether
    the call returns or raises, the hold count after the call is the one
    before it. *)
Theorem lock_balanced (c : call) (s : StorageObject) :
  _lock (after c s) = _lock s.
Proof.
  destruct c as [k v|data|k|k d|ks d|k]; cbn [after].
  - apply set_lock.
  - unfold set_many. rewrite locked_loop. apply for_each_assign_lock.
  - rewrite has_run. reflexivity.
  - rewrite get_run. reflexivity.
  - rewrite get_many_run. reflexivity.
  - rewrite remove_run. destruct (pop_returns (_data s) k); reflexivity.
Qed.

(** X2: the three reading methods never change the object, whether they
    return or raise. *)
Theorem reads_do_not_write (s : StorageObject) (k ks : value)
    (default : option value) :
  snd (has k s) = s
  /\ snd (get k default s) = s
  /\ snd (get_many ks default s) = s.
Proof. rewrite has_run, get_run, get_many_run. repeat split. Qed.

(** *** One key *)

Lemma upsert_same (d : dict) (k v : value) :
  lookup d k = Some v -> upsert d k v = d.
Proof.
  induction d as [|[k0 v0] d IH]; simpl; [discriminate|].
  destruct (eqb k0 k); intros E.
  - injection E as ->. reflexivity.
  - rewrite (IH E). reflexivity.
Qed.

Lemma delete_upsert_absent (d : dict) (k v : value) :
  lookup d k = None -> delete (upsert d k v) k = d.
Proof.
  induction d as [|[k0 v0] d IH]; simpl.
  - intros _. rewrite eqb_refl. reflexivity.
  - destruct (eqb k0 k) eqn:E; [discriminate|]. intros L.
    simpl. rewrite E, (IH L). reflexivity.
Qed.

Lemma delete_comm (d : dict) (k1 k2 : value) :
  delete (delete d k1) k2 = delete (delete d k2) k1.
Proof.
  induction d as [|[k0 v0] d IH]; simpl; [reflexivity|].
  destruct (eqb k0 k1) eqn:E1, (eqb k0 k2) eqn:E2; simpl;
    rewrite ?E1, ?E2; try reflexivity.
  - apply eqb_eq in E1, E2. subst. reflexivity.
  - rewrite IH. reflexivity.
Qed.

(** X4: after [set(k, v)] on a hashable key, [has(k)] is true and
    [get(k)] returns [v], with or without a default. *)
Theorem set_then_get (s : StorageObject) (k v : value)
    (default : option value) :
  hashable k = true ->
  exists s',
    set k v s = (Ok tt, s')
    /\ has k s' = (Ok true, s')
    /\ get k default s' = (Ok v, s').
Proof.
  intros Hk. rewrite set_run, Hk. eexists. split; [reflexivity|].
  rewrite has_run, get_run. unfold contains, Py.get. simpl.
  rewrite Hk, lookup_upsert_eq. split; reflexivity.
Qed.

(** The first case of the test suite: ['foo'] set to 123. *)
Lemma set_then_get_witness :
  hashable (VStr "foo") = true
  /\ exists s',
       set (VStr "foo") (VInt 123) __init__ = (Ok tt, s')
       /\ has (VStr "foo") s' = (Ok true, s')
       /\ get (VStr "foo") None s' = (Ok (VInt 123), s').
Proof.
  split; [reflexivity|].
  apply (set_then_get __init__ (VStr "foo") (VInt 123) None). reflexivity.
Defined.

(** X5: after [remove(k)] on a hashable key the key is gone: [has(k)] is
    false and [get(k, default)] returns the default, [None] without one. *)
Theorem remove_then_absent (s : StorageObject) (k default : value) :
  wf (_data s) = true ->
  hashable k = true ->
  exists s',
    remove k s = (Ok tt, s')
    /\ has k s' = (Ok false, s')
    /\ get k (Some default) s' = (Ok default, s')
    /\ get k None s' = (Ok VNone, s').
Proof.
  intros W Hk. rewrite remove_run, (pop_returns_hashable _ _ Hk).
  eexists. split; [reflexivity|].
  rewrite has_run, !get_run. unfold contains, Py.get. simpl.
  rewrite Hk, (lookup_delete_eq _ k W). repeat split; reflexivity.
Qed.

(** On the store [{'a': 1, 'b': 2}], removing ['a']. *)
Lemma remove_then_absent_witness :
  wf (_data store_ab) = true /\ hashable (VStr "a") = true
  /\ exists s',
       remove (VStr "a") store_ab = (Ok tt, s')
       /\ has (VStr "a") s' = (Ok false, s')
       /\ get (VStr "a") (Some (VInt 0)) s' = (Ok (VInt 0), s')
       /\ get (VStr "a") None s' = (Ok VNone, s').
Proof.
  split; [reflexivity|]. split; [reflexivity|].
  apply (remove_then_absent store_ab (VStr "a") (VInt 0)); reflexivity.
Defined.

(** X6: writing a key the store does not hold and removing it again gives
    back the store as it was, the order of its items included. *)
Theorem set_then_remove_restores (s : StorageObject) (k v : value) :
  has k s = (Ok false, s) ->
  exists s',
    set k v s = (Ok tt, s') /\ remove k s' = (Ok tt, s).
Proof.
  rewrite has_run, set_run. unfold contains.
  destruct (hashable k) eqn:Hk; [|discriminate]. intros E.
  eexists. split; [reflexivity|].
  rewrite remove_run, (pop_returns_hashable _ _ Hk). simpl.
  destruct (lookup (_data s) k) eqn:L; [discriminate|].
  rewrite (delete_upsert_absent _ _ _ L), same_state. reflexivity.
Qed.

(** On the store [{'a': 1, 'b': 2}], with the new key ['c']. *)
Lemma set_then_remove_restores_witness :
  has (VStr "c") store_ab = (Ok false, store_ab)
  /\ exists s',
       set (VStr "c") (VInt 3) store_ab = (Ok tt, s')
       /\ remove (VStr "c") s' = (Ok tt, store_ab).
Proof.
  split; [reflexivity|].
  apply (set_then_remove_restores store_ab (VStr "c") (VInt 3)). reflexivity.
Defined.

(** X7: [has] and [get] agree.  When [has(k)] is true, [get(k, default)]
    returns the same stored value for every default, and writing that value
    back with [set] changes nothing; when [has(k)] is false, [get] returns
    the default. *)
Theorem has_get_agree (s : StorageObject) (k : value) (b : bool) :
  has k s = (Ok b, s) ->
  if b then
    exists v, (forall default, get k default s = (Ok v, s))
              /\ set k v s = (Ok tt, s)
  else
    forall default, get k default s = (Ok (arg_or default VNone), s).
Proof.
  rewrite has_run. unfold contains.
  destruct (hashable k) eqn:Hk; [|discriminate]. intros E.
  injection E as <-. destruct (lookup (_data s) k) as [v|] eqn:L; simpl.
  - exists v. split.
    + intros default. rewrite get_run. unfold Py.get. rewrite Hk, L.
      reflexivity.
    + rewrite set_run, Hk, (upsert_same _ _ _ L), same_state. reflexivity.
  - intros default. rewrite get_run. unfold Py.get. rewrite Hk, L.
    reflexivity.
Qed.

(** On the store [{'a': 1, 'b': 2}]: ['a'] is there, ['x'] is not. *)
Lemma has_get_agree_witness :
  (has (VStr "a") store_ab = (Ok true, store_ab)
   /\ exists v, (forall default,
                   get (VStr "a") default store_ab = (Ok v, store_ab))
                /\ set (VStr "a") v store_ab = (Ok tt, store_ab))
  /\ (has (VStr "x") store_ab = (Ok false, store_ab)
      /\ forall default,
           get (VStr "x") default store_ab
           = (Ok (arg_or default VNone), store_ab)).
Proof.
  split; (split; [reflexivity|]).
  - apply (has_get_agree store_ab (VStr "a") true). reflexivity.
  - apply (has_get_agree store_ab (VStr "x") false). reflexivity.
Defined.

(** X8: removals commute: removing two keys in either order leaves the
    same store, for any two keys. *)
Theorem remove_commutes (s : StorageObject) (k1 k2 : value) :
  snd (remove k2 (snd (remove k1 s))) = snd (remove k1 (snd (remove k2 s))).
Proof.
  rewrite !remove_state.
  destruct (hashable k1), (hashable k2); simpl; try reflexivity.
  rewrite delete_comm. reflexivity.
Qed.

(** X9: writes to two different keys commute for every reader: after
    [set(k1, v1); set(k2, v2)] and after [set(k2, v2); set(k1, v1)],
    [has] and [get] answer alike on every key. *)
Theorem set_commutes (s : StorageObject) (k1 k2 v1 v2 k : value)
    (default : option value) :
  k1 <> k2 ->
  fst (has k (snd (set k2 v2 (snd (set k1 v1 s)))))
    = fst (has k (snd (set k1 v1 (snd (set k2 v2 s)))))
  /\ fst (get k default (snd (set k2 v2 (snd (set k1 v1 s)))))
     = fst (get k default (snd (set k1 v1 (snd (set k2 v2 s))))).
Proof.
  intros N. assert (N' : k2 <> k1) by congruence.
  assert (L : lookup (_data (snd (set k2 v2 (snd (set k1 v1 s))))) k
              = lookup (_data (snd (set k1 v1 (snd (set k2 v2 s))))) k).
  { rewrite (set_run k1 v1 s), (set_run k2 v2 s).
    destruct (hashable k1) eqn:H1, (hashable k2) eqn:H2; simpl;
      rewrite !set_run, ?H1, ?H2; simpl; try reflexivity.
    destruct (eqb k1 k) eqn:E1.
    - apply eqb_eq in E1. subst k.
      rewrite (lookup_upsert_ne _ k2 k1 v2 N'), !lookup_upsert_eq.
      reflexivity.
    - assert (k1 <> k) by (intros ->; rewrite eqb_refl in E1; discriminate).
      rewrite (lookup_upsert_ne _ k1 k v1) by assumption.
      destruct (eqb k2 k) eqn:E2.
      + apply eqb_eq in E2. subst k. rewrite !lookup_upsert_eq. reflexivity.
      + assert (k2 <> k)
          by (intros ->; rewrite eqb_refl in E2; discriminate).
        rewrite !(lookup_upsert_ne _ k2 k v2) by assumption.
        rewrite (lookup_upsert_ne _ k1 k v1) by assumption. reflexivity. }
  rewrite !has_run, !get_run. unfold contains, Py.get. simpl.
  rewrite L. split; reflexivity.
Qed.

(** On a new object, with keys ['a'] and ['b'], read at ['a']. *)
Lemma set_commutes_witness :
  VStr "a" <> VStr "b"
  /\ fst (get (VStr "a") None
            (snd (set (VStr "b") (VInt 2)
                    (snd (set (VStr "a") (VInt 1) __init__)))))
     = fst (get (VStr "a") None
              (snd (set (VStr "a") (VInt 1)
                      (snd (set (VStr "b") (VInt 2) __init__))))).
Proof.
  assert (N : VStr "a" <> VStr "b") by discriminate.
  split; [exact N|].
  apply (set_commutes __init__ (VStr "a") (VStr "b") (VInt 1) (VInt 2)
           (VStr "a") None N).
Defined.

(** *** Batch reads *)

Lemma eqb_sym (a b : value) : eqb a b = eqb b a.
Proof.
  destruct (eqb b a) eqn:E.
  - apply eqb_eq in E. subst. apply eqb_refl.
  - apply eqb_neq. intros ->. rewrite eqb_refl in E. discriminate.
Qed.

Lemma upsert_absent (d : dict) (k v : value) :
  lookup d k = None -> upsert d k v = (d ++ [(k, v)])%list.
Proof.
  induction d as [|[k0 v0] d IH]; simpl; [reflexivity|].
  destruct (eqb k0 k); [discriminate|]. intros L. rewrite (IH L). reflexivity.
Qed.

Lemma lookup_fetched (data : dict) (default : value) (l : list value)
    (k : value) :
  lookup (map (fetched data default) l) k =
  if mem k l then Some (stored_or data default k) else None.
Proof.
  induction l as [|x l IH]; simpl; [reflexivity|].
  rewrite (eqb_sym k x). destruct (eqb x k) eqn:E; simpl; [|exact IH].
  apply eqb_eq in E. subst x. reflexivity.
Qed.

Lemma filter_absorb {A : Type} (p q : A -> bool) (xs : list A) :
  (forall x, p x = true -> q x = true) ->
  filter p (filter q xs) = filter p xs.
Proof.
  intros Hpq. induction xs as [|x xs IH]; simpl; [reflexivity|].
  destruct (q x) eqn:Q; simpl.
  - rewrite IH. reflexivity.
  - destruct (p x) eqn:P; [|exact IH].
    rewrite (Hpq x P) in Q. discriminate.
Qed.

Lemma filter_both {A : Type} (p q : A -> bool) (xs : list A) :
  filter p (filter q xs) = filter (fun x => q x && p x) xs.
Proof.
  induction xs as [|x xs IH]; simpl; [reflexivity|].
  destruct (q x); simpl; [|exact IH].
  destruct (p x); rewrite IH; reflexivity.
Qed.

Lemma filter_all {A : Type} (p : A -> bool) (xs : list A) :
  (forall x, p x = true) -> filter p xs = xs.
Proof.
  intros Hp. induction xs as [|x xs IH]; simpl; [reflexivity|].
  rewrite Hp, IH. reflexivity.
Qed.

(** The comprehension, started on the items fetched for the keys [l]. *)
Lemma comprehension_fetched (data : dict) (default : value)
    (ks : list value) :
  forallb hashable ks = true ->
  forall l,
    comprehension data default ks (map (fetched data default) l) =
    Ok (map (fetched data default)
          (l ++ filter (fun x => negb (mem x l))
                  (first_occurrences ks))%list).
Proof.
  induction ks as [|k ks IH]; simpl; intros H l.
  - rewrite app_nil_r. reflexivity.
  - apply andb_true_iff in H as [Hk H].
    unfold Py.get, setitem. rewrite Hk.
    fold (stored_or data default k).
    destruct (mem k l) eqn:Mk; simpl.
    + rewrite upsert_same.
      2:{ rewrite lookup_fetched, Mk. reflexivity. }
      rewrite (IH H l). f_equal. f_equal. f_equal. symmetry.
      apply filter_absorb. intros x Hx. apply negb_true_iff in Hx.
      apply negb_true_iff. apply eqb_neq. intros ->. congruence.
    + rewrite upsert_absent.
      2:{ rewrite lookup_fetched, Mk. reflexivity. }
      change [(k, stored_or data default k)]
        with (map (fetched data default) [k]).
      rewrite <- map_app, (IH H (l ++ [k])%list), <- app_assoc. simpl.
      do 4 f_equal. rewrite filter_both.
      apply filter_ext. intros x. unfold mem. rewrite existsb_app. simpl.
      rewrite orb_false_r, negb_orb, andb_comm. reflexivity.
Qed.

Lemma first_occurrences_distinct (ks : list value) :
  distinct ks = true -> first_occurrences ks = ks.
Proof.
  induction ks as [|k ks IH]; simpl; [reflexivity|].
  intros D. apply andb_true_iff in D as [Mk D]. rewrite (IH D).
  f_equal. apply negb_true_iff in Mk. clear IH D.
  induction ks as [|x ks IH]; simpl in *; [reflexivity|].
  apply orb_false_iff in Mk as [E Mk]. rewrite (eqb_sym x k), E. simpl.
  rewrite (IH Mk). reflexivity.
Qed.

Lemma get_many_ok (ks_arg : value) (ks : list value)
    (default : option value) (s : StorageObject) :
  iter ks_arg = Ok ks ->
  forallb hashable ks = true ->
  get_many ks_arg default s =
    (Ok (map (fetched (_data s) (arg_or default VNone))
           (first_occurrences ks)), s).
Proof.
  intros I H. rewrite get_many_run, I.
  rewrite (comprehension_fetched _ _ ks H []). simpl.
  rewrite filter_all by reflexivity. reflexivity.
Qed.

(** X10: when [keys] can be iterated and every key can be hashed,
    [get_many] returns a dictionary with one item per different key, in
    the order in which the keys first occur, each holding the stored value
    or the default; the store is not changed. *)
Theorem get_many_first_occurrences (ks_arg : value) (ks : list value)
    (default : option value) (s : StorageObject) :
  iter ks_arg = Ok ks ->
  forallb hashable ks = true ->
  exists r,
    get_many ks_arg default s = (Ok r, s)
    /\ keys r = first_occurrences ks
    /\ forall k, In k (keys r) ->
         lookup r k = Some (stored_or (_data s) (arg_or default VNone) k).
Proof.
  intros I H. rewrite (get_many_ok ks_arg ks default s I H). eexists.
  split; [reflexivity|]. unfold keys. rewrite map_map. simpl.
  rewrite map_id. split; [reflexivity|]. intros k Ik.
  rewrite lookup_fetched.
  assert (M : mem k (first_occurrences ks) = true).
  { unfold mem. apply existsb_exists. exists k. split; [exact Ik|].
    apply eqb_refl. }
  rewrite M. reflexivity.
Qed.

(** On the store [{'a': 1, 'b': 2}], for the tuple [('b', 'x', 'b', 'a')]
    and the default 0. *)
Lemma get_many_first_occurrences_witness :
  exists r,
    get_many (VTuple [VStr "b"; VStr "x"; VStr "b"; VStr "a"])
      (Some (VInt 0)) store_ab = (Ok r, store_ab)
    /\ keys r = [VStr "b"; VStr "x"; VStr "a"]
    /\ forall k, In k (keys r) ->
         lookup r k = Some (stored_or (_data store_ab) (VInt 0) k).
Proof.
  apply (get_many_first_occurrences
           (VTuple [VStr "b"; VStr "x"; VStr "b"; VStr "a"])
           [VStr "b"; VStr "x"; VStr "b"; VStr "a"] (Some (VInt 0)) store_ab);
    reflexivity.
Defined.

(** X11: when the keys are hashable and all different, the dictionary
    [get_many] returns has exactly these keys in the order given, and its
    values are, position by position, what [get] returns for each key with
    the same default. *)
Theorem get_many_distinct_keys (ks_arg : value) (ks : list value)
    (default : option value) (s : StorageObject) :
  iter ks_arg = Ok ks ->
  forallb hashable ks = true ->
  distinct ks = true ->
  exists r,
    get_many ks_arg default s = (Ok r, s)
    /\ keys r = ks
    /\ Forall2 (fun k v => get k default s = (Ok v, s)) ks (values r).
Proof.
  intros I H D. rewrite (get_many_ok ks_arg ks default s I H).
  rewrite (first_occurrences_distinct ks D). eexists.
  split; [reflexivity|]. unfold keys, values. rewrite !map_map. simpl.
  split; [apply map_id|]. clear I D.
  induction ks as [|k ks IH]; simpl; constructor.
  - simpl in H. apply andb_true_iff in H as [Hk _].
    rewrite get_run. unfold Py.get, stored_or. rewrite Hk. reflexivity.
  - apply IH. simpl in H. apply andb_true_iff in H as [_ H]. exact H.
Qed.

(** On the store [{'a': 1, 'b': 2}], for the list [['b', 'x', 'a']]. *)
Lemma get_many_distinct_keys_witness :
  exists r,
    get_many (VList [VStr "b"; VStr "x"; VStr "a"]) None store_ab
      = (Ok r, store_ab)
    /\ keys r = [VStr "b"; VStr "x"; VStr "a"]
    /\ Forall2 (fun k v => get k None store_ab = (Ok v, store_ab))
         [VStr "b"; VStr "x"; VStr "a"] (values r).
Proof.
  apply (get_many_distinct_keys (VList [VStr "b"; VStr "x"; VStr "a"])
           [VStr "b"; VStr "x"; VStr "a"] None store_ab); reflexivity.
Defined.

(** X12: [get_many] raises, and then [TypeError], exactly when [keys]
    cannot be iterated or one of the keys cannot be hashed. *)
Theorem get_many_raises_iff (ks_arg : value) (default : option value)
    (s : StorageObject) :
  fst (get_many ks_arg default s) = Raise TypeError <->
  (iter ks_arg = Raise TypeError
   \/ exists ks, iter ks_arg = Ok ks /\ forallb hashable ks = false).
Proof.
  rewrite get_many_run. simpl. destruct (iter ks_arg) as [ks|[]] eqn:I.
  - split.
    + intros E. right. exists ks. split; [reflexivity|].
      destruct (forallb hashable ks) eqn:H; [|reflexivity].
      rewrite (comprehension_fetched _ _ ks H []) in E. discriminate.
    + intros [E|[ks' [E H]]]; [discriminate|]. injection E as <-.
      destruct (comprehension (_data s) (arg_or default VNone) ks [])
        as [r|[]] eqn:C; [|reflexivity].
      rewrite (comprehension_hashable _ _ _ _ _ C) in H. discriminate.
  - split; [left | intros _]; reflexivity.
Qed.

(** An integer is not iterable; a list with a list in it holds an
    unhashable key. *)
Lemma get_many_raises_iff_witness :
  fst (get_many (VInt 3) None store_ab) = Raise TypeError
  /\ fst (get_many (VList [VStr "a"; VList []]) None store_ab)
       = Raise TypeError.
Proof.
  split.
  - apply (get_many_raises_iff (VInt 3) None store_ab). left. reflexivity.
  - apply (get_many_raises_iff (VList [VStr "a"; VList []]) None store_ab).
    right. exists [VStr "a"; VList []]. split; reflexivity.
Defined.

(** *** Batch writes *)

Lemma set_each_run (xs : list (value * value)) :
  forallb (fun kv => hashable (fst kv)) xs = true ->
  forall s,
    for_each xs (fun kv => set (fst kv) (snd kv)) s =
    (Ok tt,
     {| _data := fold_left (fun d kv => upsert d (fst kv) (snd kv)) xs
                   (_data s);
        _lock := _lock s |}).
Proof.
  induction xs as [|[k v] xs IH]; simpl; intros H s.
  - unfold ret. rewrite same_state. reflexivity.
  - apply andb_true_iff in H as [Hk H]. unfold bind.
    rewrite set_run, Hk, (IH H). reflexivity.
Qed.

Lemma wf_hashable (d : dict) :
  wf d = true -> forallb (fun kv => hashable (fst kv)) d = true.
Proof.
  induction d as [|[k v] d IH]; simpl; [reflexivity|].
  intros W. apply andb_true_iff in W as [W Wd].
  apply andb_true_iff in W as [Hk _]. rewrite Hk, (IH Wd). reflexivity.
Qed.

Lemma lookup_fold_upsert (xs : list (value * value)) (k : value) :
  wf xs = true ->
  forall d,
    lookup (fold_left (fun d' kv => upsert d' (fst kv) (snd kv)) xs d) k =
    match lookup xs k with Some v => Some v | None => lookup d k end.
Proof.
  induction xs as [|[k0 v0] xs IH]; simpl; [reflexivity|].
  intros W d. apply andb_true_iff in W as [W Wd].
  apply andb_true_iff in W as [_ U]. rewrite (IH Wd).
  destruct (eqb k0 k) eqn:E.
  - apply eqb_eq in E. subst k0.
    destruct (lookup xs k); [discriminate|]. apply lookup_upsert_eq.
  - destruct (lookup xs k); [reflexivity|]. apply lookup_upsert_ne.
    intros ->. rewrite eqb_refl in E. discriminate.
Qed.

Lemma set_many_run (data : dict) (s : StorageObject) :
  wf data = true ->
  set_many data s =
  (Ok tt,
   {| _data := fold_left (fun d kv => upsert d (fst kv) (snd kv)) data
                 (_data s);
      _lock := _lock s |}).
Proof.
  intros W. unfold set_many. rewrite locked_loop.
  apply set_each_run. apply wf_hashable. exact W.
Qed.

(** X13: on a dictionary, [set_many] never raises, and afterwards
    [get(k)] returns the value [data] holds for [k] when [data] holds
    [k], and what it returned before otherwise; [has(k)] is true for the
    keys of [data] and as before for the others. *)
Theorem set_many_then_get (data : dict) (s : StorageObject) :
  wf data = true ->
  exists s',
    set_many data s = (Ok tt, s')
    /\ forall k default v b,
         get k default s = (Ok v, s) ->
         has k s = (Ok b, s) ->
         get k default s' = (Ok (stored_or data v k), s')
         /\ has k s' = (Ok (is_some (lookup data k) || b), s').
Proof.
  intros W. rewrite (set_many_run data s W). eexists.
  split; [reflexivity|]. intros k default v b.
  rewrite !get_run, !has_run. unfold Py.get, contains, stored_or. simpl.
  destruct (hashable k); [|discriminate]. intros E1 E2.
  injection E1 as <-. injection E2 as <-.
  rewrite (lookup_fold_upsert data k W).
  destruct (lookup data k); split; reflexivity.
Qed.

(** On the store [{'a': 1, 'b': 2}], writing [{'b': 20, 'c': 30}] and
    reading ['b'] and ['a']. *)
Lemma set_many_then_get_witness :
  wf [(VStr "b", VInt 20); (VStr "c", VInt 30)] = true
  /\ exists s',
       set_many [(VStr "b", VInt 20); (VStr "c", VInt 30)] store_ab
         = (Ok tt, s')
       /\ get (VStr "b") None s' = (Ok (VInt 20), s')
       /\ get (VStr "a") None s' = (Ok (VInt 1), s').
Proof.
  split; [reflexivity|].
  destruct (set_many_then_get [(VStr "b", VInt 20); (VStr "c", VInt 30)]
              store_ab eq_refl) as [s' [E H]].
  exists s'. split; [exact E|]. split.
  - apply (H (VStr "b") None (VInt 2) true); reflexivity.
  - apply (H (VStr "a") None (VInt 1) true); reflexivity.
Defined.

Lemma fetched_keys (store data : dict) (default : value) :
  wf data = true ->
  (forall k v, lookup data k = Some v -> lookup store k = Some v) ->
  map (fetched store default) (keys data) = data.
Proof.
  induction data as [|[k v] data IH]; simpl; [reflexivity|].
  intros W H. apply andb_true_iff in W as [W Wd].
  apply andb_true_iff in W as [_ U]. f_equal.
  - unfold fetched, stored_or. rewrite (H k v); [reflexivity|].
    rewrite eqb_refl. reflexivity.
  - apply (IH Wd). intros k' v' L. apply H.
    destruct (eqb k k') eqn:E; [|exact L].
    apply eqb_eq in E. subst k'. rewrite L in U. discriminate.
Qed.

Lemma wf_distinct (d : dict) : wf d = true -> distinct (keys d) = true.
Proof.
  induction d as [|[k v] d IH]; simpl; [reflexivity|].
  intros W. apply andb_true_iff in W as [W Wd].
  apply andb_true_iff in W as [_ U]. rewrite (IH Wd), andb_true_r.
  rewrite <- U. f_equal. clear.
  induction d as [|[k0 v0] d IH]; simpl; [reflexivity|].
  rewrite (eqb_sym k k0). destruct (eqb k0 k); [reflexivity | exact IH].
Qed.

Lemma wf_keys_hashable (d : dict) :
  wf d = true -> forallb hashable (keys d) = true.
Proof.
  intros W. apply wf_hashable in W. unfold keys.
  induction d as [|[k v] d IH]; simpl in *; [reflexivity|].
  apply andb_true_iff in W as [Hk W]. rewrite Hk, (IH W). reflexivity.
Qed.

(** X14: what [set_many] writes, [get_many] reads back: after
    [set_many(data)], [get_many(list(data.keys()))] returns a dictionary
    with the items of [data], in the order of [data], whatever the store
    held before and whatever the default. *)
Theorem set_many_then_get_many (data : dict) (default : option value)
    (s : StorageObject) :
  wf data = true ->
  exists s',
    set_many data s = (Ok tt, s')
    /\ get_many (VList (keys data)) default s' = (Ok data, s').
Proof.
  intros W. rewrite (set_many_run data s W). eexists.
  split; [reflexivity|].
  rewrite (get_many_ok (VList (keys data)) (keys data)
             default _ eq_refl (wf_keys_hashable data W)).
  rewrite (first_occurrences_distinct _ (wf_distinct data W)). simpl.
  rewrite fetched_keys; [reflexivity | exact W |].
  intros k v L. rewrite (lookup_fold_upsert data k W), L. reflexivity.
Qed.

(** On the store [{'a': 1, 'b': 2}], with [{'b': 20, 'c': 30}]. *)
Lemma set_many_then_get_many_witness :
  wf [(VStr "b", VInt 20); (VStr "c", VInt 30)] = true
  /\ exists s',
       set_many [(VStr "b", VInt 20); (VStr "c", VInt 30)] store_ab
         = (Ok tt, s')
       /\ get_many (VList [VStr "b"; VStr "c"]) None s'
          = (Ok [(VStr "b", VInt 20); (VStr "c", VInt 30)], s').
Proof.
  split; [reflexivity|].
  apply (set_many_then_get_many [(VStr "b", VInt 20); (VStr "c", VInt 30)]
           None store_ab).
  reflexivity.
Defined.

Lemma set_each_noop (xs : list (value * value)) (s : StorageObject) :
  forallb (fun kv => hashable (fst kv)) xs = true ->
  (forall k v, In (k, v) xs -> lookup (_data s) k = Some v) ->
  for_each xs (fun kv => set (fst kv) (snd kv)) s = (Ok tt, s).
Proof.
  induction xs as [|[k v] xs IH]; simpl; intros H L; [reflexivity|].
  apply andb_true_iff in H as [Hk H]. unfold bind.
  rewrite set_run, Hk, (upsert_same _ k v), same_state.
  - apply (IH H). intros k' v' I. apply L. right. exact I.
  - apply L. left. reflexivity.
Qed.

Lemma wf_in_lookup (d : dict) (k v : value) :
  wf d = true -> In (k, v) d -> lookup d k = Some v.
Proof.
  induction d as [|[k0 v0] d IH]; simpl; [contradiction|].
  intros W. apply andb_true_iff in W as [W Wd].
  apply andb_true_iff in W as [_ U]. intros [E|I].
  - injection E as -> ->. rewrite eqb_refl. reflexivity.
  - pose proof (IH Wd I) as L. destruct (eqb k0 k) eqn:E; [|exact L].
    apply eqb_eq in E. subst k0. rewrite L in U. discriminate.
Qed.

(** X15: [set_many] is idempotent: writing the same dictionary a second
    time returns and leaves the store exactly as the first write left
    it. *)
Theorem set_many_idempotent (data : dict) (s : StorageObject) :
  wf data = true ->
  exists s',
    set_many data s = (Ok tt, s') /\ set_many data s' = (Ok tt, s').
Proof.
  intros W. rewrite (set_many_run data s W). eexists.
  split; [reflexivity|]. unfold set_many. rewrite locked_loop.
  apply set_each_noop; [apply wf_hashable; exact W|].
  intros k v I. simpl.
  rewrite (lookup_fold_upsert data k W), (wf_in_lookup data k v W I).
  reflexivity.
Qed.

(** On the store [{'a': 1, 'b': 2}], with [{'b': 20, 'c': 30}]. *)
Lemma set_many_idempotent_witness :
  wf [(VStr "b", VInt 20); (VStr "c", VInt 30)] = true
  /\ exists s',
       set_many [(VStr "b", VInt 20); (VStr "c", VInt 30)] store_ab
         = (Ok tt, s')
       /\ set_many [(VStr "b", VInt 20); (VStr "c", VInt 30)] s'
          = (Ok tt, s').
Proof.
  split; [reflexivity|].
  apply (set_many_idempotent [(VStr "b", VInt 20); (VStr "c", VInt 30)]
           store_ab).
  reflexivity.
Defined.

(** *** Failed calls *)

(** X16: a call that raises leaves the object exactly as it was: no
    method writes anything before it fails. *)
Theorem raise_leaves_store (c : call) (s : StorageObject) :
  dict_args c = true ->
  raises c s = true ->
  after c s = s.
Proof.
  destruct c as [k v|data|k|k d|ks d|k]; cbn [after raises dict_args];
    unfold raised; intros W R.
  - rewrite set_run in *. destruct (hashable k); [discriminate | reflexivity].
  - rewrite (set_many_run data s W) in R. discriminate.
  - rewrite has_run. reflexivity.
  - rewrite get_run. reflexivity.
  - rewrite get_many_run. reflexivity.
  - rewrite remove_run in *.
    destruct (pop_returns (_data s) k); [discriminate | reflexivity].
Qed.

(** On the store [{'a': 1, 'b': 2}], [set([], 1)]. *)
Lemma raise_leaves_store_witness :
  raises (CallSet (VList []) (VInt 1)) store_ab = true
  /\ after (CallSet (VList []) (VInt 1)) store_ab = store_ab.
Proof.
  split; [reflexivity|].
  apply (raise_leaves_store (CallSet (VList []) (VInt 1)) store_ab);
    reflexivity.
Defined.
